(** * The Moonshot model adapter

    A shallow embedding of [src/models/moonshot_model.py]: the class
    [MoonshotModel], its constructor, its connectivity probe, its
    chat-completion call and its static parameter table.

    The adapter talks to three things outside itself: the console
    ([cprint]), the OpenAI client library and, through it, the remote
    provider.  All three are made explicit here.  A method is a function
    from the log of everything that has happened so far to an outcome (a
    value or a raised exception) and the extended log; the provider is an
    oracle that answers each request from the log that precedes it. *)

From Stdlib Require Import ZArith String SpecFloat.
From stdpp Require Import base option list gmap strings.

Set Warnings "-register-all,-clear-no-such-hyp".
Local Open Scope string_scope.
Local Open Scope Z_scope.

(** ** Python values *)

(** The values the adapter hands to the client library as keyword
    arguments and receives back as a dumped payload.  A [float] is an
    IEEE-754 binary64 number, a [dict] with string keys a finite map. *)
Inductive pyvalue : Type :=
  | PNone
  | PBool (b : bool)
  | PInt (z : Z)
  | PFloat (f : spec_float)
  | PStr (s : string)
  | PList (l : list pyvalue)
  | PDict (d : gmap string pyvalue).

(** Truth value of an [Optional[str]]: [None] and [""] are falsy. *)
Definition py_truthy (o : option string) : bool :=
  match o with
  | None | Some "" => false
  | Some _ => true
  end.

(** [a or b] where [a] is an [Optional[str]] and [b] a [str]. *)
Definition py_or (a : option string) (b : string) : string :=
  match a with
  | None | Some "" => b
  | Some s => s
  end.

(** ** Exceptions *)

(** The part of the exception hierarchy the adapter can tell apart:
    [except Exception] catches every class below [Exception] and lets
    the three classes that derive from [BaseException] alone pass; a bare
    [except:] catches all of them. *)
Inductive exc_class : Type :=
  | KeyboardInterrupt
  | SystemExit
  | GeneratorExit
  | ExceptionClass (name : string).

(** A raised exception: its class and what [str(e)] returns. *)
Record py_exception : Type := PyExc {
  exc_type : exc_class;
  exc_str : string;
}.

Definition isinstance_Exception (e : py_exception) : bool :=
  match exc_type e with
  | ExceptionClass _ => true
  | _ => false
  end.

Definition Exception (msg : string) : py_exception :=
  PyExc (ExceptionClass "Exception") msg.
Definition ValueError (msg : string) : py_exception :=
  PyExc (ExceptionClass "ValueError") msg.
Definition IndexError (msg : string) : py_exception :=
  PyExc (ExceptionClass "IndexError") msg.
Definition AttributeError (msg : string) : py_exception :=
  PyExc (ExceptionClass "AttributeError") msg.

(** ** The client library *)

Module openai.

(** [OpenAI(api_key=..., base_url=...)]: the constructor stores its two
    arguments and opens no connection. *)
Record OpenAI : Type := mkOpenAI {
  api_key : string;
  base_url : string;
}.

(** The fields of a chat completion the adapter reads. *)
Record ChatCompletionMessage : Type := mkMessage {
  content : option string;
}.

Record Choice : Type := mkChoice {
  message : ChatCompletionMessage;
}.

Record CompletionUsage : Type := mkUsage {
  total_tokens : Z;
}.

Record ChatCompletion : Type := mkCompletion {
  choices : list Choice;
  usage : option CompletionUsage;
  model_dump : pyvalue;
}.

End openai.

(** ** The log *)

Inductive event : Type :=
  | Cprint (text color : string) (on_color : option string)
  | ModelsList (c : openai.OpenAI)
  | ChatCompletionsCreate (c : openai.OpenAI) (kw : gmap string pyvalue).

(** The provider behind the client library.  Each answer may depend on
    everything that happened before the request. *)
Record Provider : Type := mkProvider {
  models_list : list event -> openai.OpenAI -> py_exception + unit;
  chat_completions_create :
    list event -> openai.OpenAI -> gmap string pyvalue ->
    py_exception + openai.ChatCompletion;
}.

(** ** Computations that may raise and that extend the log *)

Definition M (A : Type) : Type :=
  list event -> (py_exception + A) * list event.

Definition ret {A} (a : A) : M A := fun w => (inr a, w).

Definition raise {A} (e : py_exception) : M A := fun w => (inl e, w).

Definition bind {A B} (m : M A) (k : A -> M B) : M B :=
  fun w =>
    match m w with
    | (inr a, w') => k a w'
    | (inl e, w') => (inl e, w')
    end.

Notation "x <- m ;; k" := (bind m (fun x => k))
  (at level 100, m at next level, right associativity).
Notation "m ;;; k" := (bind m (fun _ => k))
  (at level 100, right associativity).

(** [try: body except Exception as e: handler e] *)
Definition try_except_Exception {A} (body : M A) (handler : py_exception -> M A)
  : M A :=
  fun w =>
    match body w with
    | (inr a, w') => (inr a, w')
    | (inl e, w') =>
        if isinstance_Exception e then handler e w' else (inl e, w')
    end.

(** [try: body except: handler] *)
Definition try_except {A} (body : M A) (handler : M A) : M A :=
  fun w =>
    match body w with
    | (inr a, w') => (inr a, w')
    | (inl _, w') => handler w'
    end.

Definition cprint (text color : string) (on_color : option string) : M unit :=
  fun w => (inr tt, (w ++ [Cprint text color on_color])%list).

(** [l[0]] *)
Definition index0 {A} (l : list A) : M A :=
  match l with
  | x :: _ => ret x
  | [] => raise (IndexError "list index out of range")
  end.

(** [u.total_tokens] where [u] may be [None] *)
Definition get_total_tokens (u : option openai.CompletionUsage) : M Z :=
  match u with
  | Some u => ret (openai.total_tokens u)
  | None =>
      raise (AttributeError "'NoneType' object has no attribute 'total_tokens'")
  end.

(** ** base_model.py *)

Module ModelResponse.

(** Modelled from the spec: the class [ModelResponse] is imported from
    [base_model.py], which is not among the sources.  Its fields are the
    four keyword arguments [generate_response] builds it from: the text,
    the raw provider payload, the model identifier used and the usage
    counters. *)
Record t : Type := mk {
  content : option string;
  raw_response : pyvalue;
  model_name : string;
  usage : gmap string Z;
}.

End ModelResponse.

(** Modelled from the spec: [BaseModel.__init__] is defined in
    [base_model.py], which is not among the sources.  It resolves the
    credential, the argument value or else the one the environment
    supplies, and stores it as [self.api_key]. *)
Definition BaseModel_init (environ_api_key api_key : option string)
  : option string :=
  match api_key with
  | Some key => Some key
  | None => environ_api_key
  end.

(** ** moonshot_model.py *)

(** An instance of [MoonshotModel] with all four attributes set. *)
Record MoonshotModel : Type := mkMoonshotModel {
  base_url : string;
  model_name : string;
  api_key : string;
  client : openai.OpenAI;
}.

Definition AVAILABLE_MODELS : list string :=
  [ "moonshot-v1-8k";
    "moonshot-v1-32k";
    "moonshot-v1-128k";
    "kimi-k2-thinking";
    "kimi-k2-thinking-turbo";
    "kimi-k2-0905-preview";
    "kimi-k2-turbo-preview" ].

(** Defaults of the keyword parameters. *)
Definition default_model_name : string := "kimi-k2-thinking".

(** [0.7], the binary64 number [0x1.6666666666666p-1]. *)
Definition default_temperature : spec_float :=
  S754_finite false 6305039478318694 (-53).

Definition default_max_tokens : option Z := None.

(** The dict literal [params] of [get_model_parameters]. *)
Definition params : gmap string (gmap string Z) :=
  {[ "moonshot-v1-8k" :=
       {[ "context_window" := 8000; "max_output_tokens" := 4096 ]};
     "moonshot-v1-32k" :=
       {[ "context_window" := 32000; "max_output_tokens" := 8000 ]};
     "moonshot-v1-128k" :=
       {[ "context_window" := 128000; "max_output_tokens" := 8000 ]};
     "kimi-k2-thinking" :=
       {[ "context_window" := 256000; "max_output_tokens" := 8000 ]} ]}.

(** The keyword arguments of the one call of
    [self.client.chat.completions.create]. *)
Definition create_kwargs (model system_prompt user_content : string)
    (temperature : spec_float) (max_tokens : option Z) : gmap string pyvalue :=
  {[ "model" := PStr model;
     "messages" :=
       PList [ PDict {[ "role" := PStr "system";
                        "content" := PStr system_prompt ]};
               PDict {[ "role" := PStr "user";
                        "content" := PStr user_content ]} ];
     "temperature" := PFloat temperature;
     "max_tokens" := from_option PInt PNone max_tokens ]}.

Section Adapter.

Variable provider : Provider.

(** [c.models.list()] *)
Definition client_models_list (c : openai.OpenAI) : M unit :=
  fun w => (models_list provider w c, (w ++ [ModelsList c])%list).

(** [c.chat.completions.create] called with the keyword arguments [kw] *)
Definition client_chat_completions_create (c : openai.OpenAI)
    (kw : gmap string pyvalue) : M openai.ChatCompletion :=
  fun w =>
    (chat_completions_create provider w c kw,
     (w ++ [ChatCompletionsCreate c kw])%list).

(** [initialize_client], on the attributes [__init__] has set before
    it; it returns [self] once [self.client] exists. *)
Definition initialize_client (base_url model_name : string)
    (api_key : option string) : M MoonshotModel :=
  match api_key with
  | None | Some "" =>
      cprint "❌ Moonshot API key not found!" "white" (Some "on_red") ;;;
      cprint "   Please set MOONSHOT_API_KEY in your .env file" "yellow" None ;;;
      raise (ValueError "MOONSHOT_API_KEY not configured")
  | Some key =>
      try_except_Exception
        (let client := openai.mkOpenAI key base_url in
         client_models_list client ;;;
         cprint "✨ Successfully connected to Moonshot API" "green" None ;;;
         cprint ("   Model: " +:+ model_name) "cyan" None ;;;
         ret (mkMoonshotModel base_url model_name key client))
        (fun e =>
           cprint ("❌ Error initializing Moonshot: " +:+ exc_str e)
                  "white" (Some "on_red") ;;;
           raise e)
  end.

(** [MoonshotModel(api_key, model_name)] in a process whose environment
    supplies [environ_api_key]. *)
Definition __init__ (environ_api_key : option string)
    (api_key : option string) (model_name : string) : M MoonshotModel :=
  let base_url := "https://api.moonshot.ai/v1" in
  let api_key := BaseModel_init environ_api_key api_key in
  initialize_client base_url model_name api_key.

Definition model_type (self : MoonshotModel) : string := "moonshot".

Definition is_available (self : MoonshotModel) : M bool :=
  try_except
    (client_models_list (client self) ;;;
     ret true)
    (ret false).

Definition generate_response (self : MoonshotModel)
    (system_prompt user_content : string) (temperature : spec_float)
    (max_tokens : option Z) (kwargs : gmap string pyvalue)
  : M ModelResponse.t :=
  try_except_Exception
    (completion <-
       client_chat_completions_create (client self)
         (create_kwargs (model_name self) system_prompt user_content
                        temperature max_tokens) ;;
     choice <- index0 (openai.choices completion) ;;
     let content := openai.content (openai.message choice) in
     let raw_response := openai.model_dump completion in
     total_tokens <- get_total_tokens (openai.usage completion) ;;
     ret (ModelResponse.mk content raw_response (model_name self)
                           {[ "total_tokens" := total_tokens ]}))
    (fun e => raise (Exception ("Moonshot API error: " +:+ exc_str e))).

Definition __str__ (self : MoonshotModel) : string :=
  "MoonshotModel(" +:+ model_name self +:+ ")".

Definition get_model_parameters (self : MoonshotModel)
    (model_name_arg : option string) : M (gmap string Z) :=
  let model := py_or model_name_arg (model_name self) in
  ret (default ∅ (params !! model)).

End Adapter.

(** ** Test doubles *)

(** A completion with the text "hello" and 42 tokens in total. *)
Definition mock_completion : openai.ChatCompletion :=
  openai.mkCompletion
    [ openai.mkChoice (openai.mkMessage (Some "hello")) ]
    (Some (openai.mkUsage 42))
    (PDict {[ "id" := PStr "cmpl-1";
              "usage" := PDict {[ "total_tokens" := PInt 42 ]} ]}).

(** A provider whose probe and whose completion request always succeed. *)
Definition mock_provider : Provider :=
  mkProvider (fun _ _ => inr tt) (fun _ _ _ => inr mock_completion).

(** A provider whose every request raises [e]. *)
Definition raising_provider (e : py_exception) : Provider :=
  mkProvider (fun _ _ => inl e) (fun _ _ _ => inl e).

Definition APIConnectionError (msg : string) : py_exception :=
  PyExc (ExceptionClass "APIConnectionError") msg.

Definition mock_client : openai.OpenAI :=
  openai.mkOpenAI "sk-test" "https://api.moonshot.ai/v1".

(** The instance [MoonshotModel(api_key="sk-test", model_name=m)]. *)
Definition mock_self (m : string) : MoonshotModel :=
  mkMoonshotModel "https://api.moonshot.ai/v1" m "sk-test" mock_client.

(** ** What the specification says of [GetModelParameters] *)

(** The identifier looked up is the given one, or the configured one when
    none is given. *)
Definition GetModelParameters_spec (configured : string)
    (given : option string) : gmap string Z :=
  default ∅ (params !! default configured given).

(** ** Reading the log *)



(** A provider that is reachable but answers a completion request with a
    payload that has neither choices nor usage. *)
Definition hollow_provider : Provider :=
  mkProvider (fun _ _ => inr tt)
             (fun _ _ _ => inr (openai.mkCompletion [] None PNone)).

(** * Properties *)

Ltac run_py :=
  cbv [bind ret raise try_except try_except_Exception cprint index0
       get_total_tokens client_models_list client_chat_completions_create];
  cbn [fst snd].

(** ** Outcomes *)

Lemma inr_eq_inv {A B : Type} (x y : B) : @inr A B x = inr y -> x = y.
Proof.
  intros H.
  exact (f_equal (fun s => match s with inr b => b | inl _ => x end) H).
Qed.

(** ** Truthiness *)

Lemma py_truthy_true (o : option string) :
  py_truthy o = true -> exists key, o = Some key /\ key <> "".
Proof.
  destruct o as [[|a s]|]; cbn; try discriminate.
  intros _. exists (String a s). split; [reflexivity | discriminate].
Qed.

Lemma py_or_given (s configured : string) :
  s <> "" -> py_or (Some s) configured = s.
Proof. destruct s; [congruence | reflexivity]. Qed.

(** ** The parameter table *)

Lemma params_8k :
  params !! "moonshot-v1-8k" =
    Some {[ "context_window" := 8000; "max_output_tokens" := 4096 ]}.
Proof. unfold params. by simplify_map_eq. Qed.

Lemma params_kimi_k2_thinking :
  params !! "kimi-k2-thinking" =
    Some {[ "context_window" := 256000; "max_output_tokens" := 8000 ]}.
Proof. unfold params. by simplify_map_eq. Qed.

Lemma dom_params :
  dom params =
    ({[ "moonshot-v1-8k"; "moonshot-v1-32k"; "moonshot-v1-128k";
        "kimi-k2-thinking" ]} : gset string).
Proof.
  unfold params. rewrite !dom_insert_L, dom_singleton_L. set_solver.
Qed.

Lemma params_absent (m : string) :
  m ∉ ({[ "moonshot-v1-8k"; "moonshot-v1-32k"; "moonshot-v1-128k";
          "kimi-k2-thinking" ]} : gset string) ->
  params !! m = None.
Proof. rewrite <- dom_params. apply not_elem_of_dom. Qed.

Lemma entry_nonempty (a b : Z) :
  ({[ "context_window" := a; "max_output_tokens" := b ]} : gmap string Z) ≠ ∅.
Proof. apply insert_non_empty. Qed.

(** ** [get_model_parameters] *)

(** The method returns and leaves the log as it found it, whatever it is
    given. *)
Lemma get_model_parameters_run (self : MoonshotModel)
    (model_name_arg : option string) (w : list event) :
  get_model_parameters self model_name_arg w =
    (inr (default ∅ (params !! py_or model_name_arg (model_name self))), w).
Proof. reflexivity. Qed.

(** C4, as the specification words it, fails when the identifier given is
    the empty string: [model_name or self.model_name] then falls back to
    the configured identifier, so an adapter configured with
    ["moonshot-v1-8k"] answers with that model's entry, whereas looking up
    [""] itself finds nothing. *)
Lemma get_model_parameters_empty_identifier :
  fst (get_model_parameters (mock_self "moonshot-v1-8k") (Some "") []) =
    inr {[ "context_window" := 8000; "max_output_tokens" := 4096 ]}
  /\ GetModelParameters_spec "moonshot-v1-8k" (Some "") = ∅
  /\ fst (get_model_parameters (mock_self "moonshot-v1-8k") (Some "") []) <>
       inr (GetModelParameters_spec "moonshot-v1-8k" (Some "")).
Proof.
  assert (Hspec : GetModelParameters_spec "moonshot-v1-8k" (Some "") = ∅).
  { unfold GetModelParameters_spec. cbn [default].
    rewrite params_absent; [reflexivity | set_solver]. }
  rewrite get_model_parameters_run, Hspec. cbn [fst py_or mock_self model_name].
  rewrite params_8k. cbn [default].
  split; [reflexivity | split; [reflexivity |]].
  intros H. apply inr_eq_inv in H. by apply entry_nonempty in H.
Qed.

(** C4 (amended): [get_model_parameters("moonshot-v1-8k")] is exactly
    [{context_window: 8000, max_output_tokens: 4096}] and
    [get_model_parameters("unknown-model-xyz")] is the empty mapping; for
    every input the method looks up the given identifier when one is given
    and is not the empty string, and the configured identifier when none
    is given or the empty string is given; it returns the entry found or
    the empty mapping, adds nothing to the log and never raises. *)
Theorem get_model_parameters_lookup :
  (forall self w,
      get_model_parameters self (Some "moonshot-v1-8k") w =
        (inr {[ "context_window" := 8000; "max_output_tokens" := 4096 ]}, w))
  /\ (forall self w,
      get_model_parameters self (Some "unknown-model-xyz") w = (inr ∅, w))
  /\ (forall self (given : string) w,
      given <> "" ->
      get_model_parameters self (Some given) w =
        (inr (default ∅ (params !! given)), w))
  /\ (forall self w,
      get_model_parameters self None w =
        (inr (default ∅ (params !! model_name self)), w))
  /\ (forall self w,
      get_model_parameters self (Some "") w =
        (inr (default ∅ (params !! model_name self)), w)).
Proof.
  split; [| split; [| split; [| split]]];
    intros; rewrite get_model_parameters_run.
  - cbn [py_or]. by rewrite params_8k.
  - cbn [py_or]. rewrite params_absent; [reflexivity | set_solver].
  - by rewrite py_or_given.
  - reflexivity.
  - reflexivity.
Qed.

Lemma get_model_parameters_lookup_witness :
  "moonshot-v1-32k" <> ""
  /\ get_model_parameters (mock_self "kimi-k2-thinking")
       (Some "moonshot-v1-32k") [] =
       (inr (default ∅ (params !! "moonshot-v1-32k")), []).
Proof.
  split; [discriminate |].
  apply (proj1 (proj2 (proj2 get_model_parameters_lookup))). discriminate.
Defined.

(** C5, as the specification words it, fails: the default identifier
    ["kimi-k2-thinking"] is a key of the table, and the method does not
    answer with the empty mapping for it. *)
Lemma get_model_parameters_default_not_empty :
  default_model_name = "kimi-k2-thinking"
  /\ fst (get_model_parameters (mock_self default_model_name)
            (Some "kimi-k2-thinking") []) <> inr ∅
  /\ fst (get_model_parameters (mock_self default_model_name) None [])
       <> inr ∅.
Proof.
  split; [reflexivity |].
  rewrite !get_model_parameters_run.
  cbn [fst py_or mock_self model_name default_model_name].
  rewrite params_kimi_k2_thinking. cbn [default].
  split; intros H; apply inr_eq_inv in H; by apply entry_nonempty in H.
Qed.

(** C5 (amended): ["kimi-k2-thinking"], the default model identifier, is a
    listed entry of the static parameter table, and [get_model_parameters]
    returns [{context_window: 256000, max_output_tokens: 8000}] for it,
    both when it is given and when it is the configured identifier and
    none is given. *)
Theorem get_model_parameters_default_model :
  default_model_name = "kimi-k2-thinking"
  /\ "kimi-k2-thinking" ∈ dom params
  /\ (forall self w,
      get_model_parameters self (Some "kimi-k2-thinking") w =
        (inr {[ "context_window" := 256000; "max_output_tokens" := 8000 ]},
         w))
  /\ (forall self w,
      model_name self = default_model_name ->
      get_model_parameters self None w =
        (inr {[ "context_window" := 256000; "max_output_tokens" := 8000 ]},
         w)).
Proof.
  split; [reflexivity |].
  split; [rewrite dom_params; set_solver |].
  split; intros; rewrite get_model_parameters_run; cbn [py_or].
  - by rewrite params_kimi_k2_thinking.
  - rewrite H. unfold default_model_name. by rewrite params_kimi_k2_thinking.
Qed.

Lemma get_model_parameters_default_model_witness :
  model_name (mock_self default_model_name) = default_model_name
  /\ get_model_parameters (mock_self default_model_name) None [] =
       (inr {[ "context_window" := 256000; "max_output_tokens" := 8000 ]},
        []).
Proof.
  split; [reflexivity |].
  apply (proj2 (proj2 (proj2 get_model_parameters_default_model))).
  reflexivity.
Defined.

(** C10: every key of the parameter table is a known model, but not the
    other way round: ["kimi-k2-thinking-turbo"], ["kimi-k2-0905-preview"]
    and ["kimi-k2-turbo-preview"] are in [AVAILABLE_MODELS] and
    [get_model_parameters] returns the empty mapping for each of them. *)
Theorem params_strict_subset_of_available_models :
  dom params ⊂ list_to_set AVAILABLE_MODELS
  /\ Forall
       (fun m =>
          (m ∈ AVAILABLE_MODELS)
          /\ (m ∉ dom params)
          /\ (forall self w,
                get_model_parameters self (Some m) w = (inr ∅, w)))
       [ "kimi-k2-thinking-turbo"; "kimi-k2-0905-preview";
         "kimi-k2-turbo-preview" ].
Proof.
  split.
  - rewrite dom_params. unfold AVAILABLE_MODELS. cbn [list_to_set foldr].
    apply strict_spec_alt. split; [set_solver |].
    intros H.
    assert (Hin : "kimi-k2-turbo-preview" ∈
      ({[ "moonshot-v1-8k"; "moonshot-v1-32k"; "moonshot-v1-128k";
          "kimi-k2-thinking" ]} : gset string)) by (rewrite H; set_solver).
    set_solver.
  - repeat first [apply Forall_cons_2 | apply Forall_nil_2];
      (split; [unfold AVAILABLE_MODELS; set_solver |]);
      (split; [rewrite dom_params; set_solver |]);
      intros; rewrite get_model_parameters_run; cbn [py_or];
      (rewrite params_absent; [reflexivity | set_solver]).
Qed.

(** ** Construction *)

Section Construction.

Variable provider : Provider.

(** Without a usable key the client is never created: two notices are
    printed and [ValueError] is raised. *)
Lemma initialize_client_no_key (base_url model_name : string)
    (api_key : option string) (w : list event) :
  py_truthy api_key = false ->
  initialize_client provider base_url model_name api_key w =
    (inl (ValueError "MOONSHOT_API_KEY not configured"),
     (w ++ [ Cprint "❌ Moonshot API key not found!" "white" (Some "on_red");
             Cprint "   Please set MOONSHOT_API_KEY in your .env file"
                    "yellow" None ])%list).
Proof.
  intros Hkey.
  destruct api_key as [[|a s]|]; try discriminate Hkey;
    unfold initialize_client; run_py; by rewrite <- app_assoc.
Qed.

(** With a key the outcome is the outcome of the probe. *)
Lemma initialize_client_with_key (base_url model_name key : string)
    (w : list event) :
  key <> "" ->
  let c := openai.mkOpenAI key base_url in
  initialize_client provider base_url model_name (Some key) w =
    match models_list provider w c with
    | inr _ =>
        (inr (mkMoonshotModel base_url model_name key c),
         (w ++ [ ModelsList c;
                 Cprint "✨ Successfully connected to Moonshot API"
                        "green" None;
                 Cprint ("   Model: " +:+ model_name) "cyan" None ])%list)
    | inl e =>
        (inl e,
         if isinstance_Exception e then
           (w ++ [ ModelsList c;
                   Cprint ("❌ Error initializing Moonshot: " +:+ exc_str e)
                          "white" (Some "on_red") ])%list
         else (w ++ [ ModelsList c ])%list)
    end.
Proof.
  intros Hkey c. destruct key as [|a s]; [congruence |].
  unfold initialize_client. run_py. fold c.
  destruct (models_list provider w c) as [e|[]].
  - destruct (isinstance_Exception e); [by rewrite <- app_assoc | done].
  - by rewrite <- !app_assoc.
Qed.

End Construction.

(** C3: whatever the model identifier, construction with no credential
    argument and none to be had from the environment raises
    [ValueError("MOONSHOT_API_KEY not configured")]; no instance comes
    back and nothing but the two notices is added to the log. *)
Theorem init_without_credential (provider : Provider)
    (environ_api_key : option string) (model_name : string)
    (w : list event) :
  py_truthy environ_api_key = false ->
  __init__ provider environ_api_key None model_name w =
    (inl (ValueError "MOONSHOT_API_KEY not configured"),
     (w ++ [ Cprint "❌ Moonshot API key not found!" "white" (Some "on_red");
             Cprint "   Please set MOONSHOT_API_KEY in your .env file"
                    "yellow" None ])%list).
Proof.
  intros Henv. unfold __init__. cbn [BaseModel_init].
  by apply initialize_client_no_key.
Qed.

Lemma init_without_credential_witness :
  fst (__init__ mock_provider None None "moonshot-v1-8k" []) =
    inl (ValueError "MOONSHOT_API_KEY not configured").
Proof.
  exact (f_equal fst
           (init_without_credential mock_provider None "moonshot-v1-8k" []
              eq_refl)).
Defined.

(** C7: when the credential resolves to a non-empty key and the probe
    [client.models.list()] raises, construction raises that very
    exception and returns no instance. *)
Theorem init_probe_failure (provider : Provider)
    (environ_api_key api_key : option string) (model_name key : string)
    (w : list event) (e : py_exception) :
  BaseModel_init environ_api_key api_key = Some key ->
  key <> "" ->
  models_list provider w (openai.mkOpenAI key "https://api.moonshot.ai/v1")
    = inl e ->
  fst (__init__ provider environ_api_key api_key model_name w) = inl e.
Proof.
  intros Hres Hkey Hprobe. unfold __init__. rewrite Hres.
  rewrite initialize_client_with_key by assumption.
  cbv zeta. by rewrite Hprobe.
Qed.

Lemma init_probe_failure_witness :
  fst (__init__ (raising_provider (APIConnectionError "Connection error."))
         None (Some "sk-test") default_model_name []) =
    inl (APIConnectionError "Connection error.").
Proof.
  apply (init_probe_failure _ None (Some "sk-test") _ "sk-test");
    [reflexivity | discriminate | reflexivity].
Defined.

(** C6, as the specification words it, fails: ["unknown-model-xyz"] is
    not in [AVAILABLE_MODELS], and constructing the adapter with it, a key
    and a reachable provider returns an instance configured with it. *)
Lemma init_accepts_unknown_model :
  ("unknown-model-xyz" ∉ AVAILABLE_MODELS)
  /\ fst (__init__ mock_provider None (Some "sk-test") "unknown-model-xyz" [])
       = inr (mock_self "unknown-model-xyz").
Proof.
  split; [unfold AVAILABLE_MODELS; set_solver | reflexivity].
Qed.

(** C6 (amended): construction never consults the known-models set.  For
    every model identifier, in the set or not, construction with a
    credential that resolves to a non-empty key and a probe that succeeds
    returns an instance configured with that identifier. *)
Theorem init_any_model_identifier (provider : Provider)
    (environ_api_key api_key : option string) (model_name key : string)
    (w : list event) :
  BaseModel_init environ_api_key api_key = Some key ->
  key <> "" ->
  models_list provider w (openai.mkOpenAI key "https://api.moonshot.ai/v1")
    = inr tt ->
  fst (__init__ provider environ_api_key api_key model_name w) =
    inr (mkMoonshotModel "https://api.moonshot.ai/v1" model_name key
           (openai.mkOpenAI key "https://api.moonshot.ai/v1")).
Proof.
  intros Hres Hkey Hprobe. unfold __init__. rewrite Hres.
  rewrite initialize_client_with_key by assumption.
  cbv zeta. by rewrite Hprobe.
Qed.

Lemma init_any_model_identifier_witness :
  ("not-a-moonshot-model" ∉ AVAILABLE_MODELS)
  /\ fst (__init__ mock_provider (Some "sk-env") None "not-a-moonshot-model"
            []) =
       inr (mkMoonshotModel "https://api.moonshot.ai/v1"
              "not-a-moonshot-model" "sk-env"
              (openai.mkOpenAI "sk-env" "https://api.moonshot.ai/v1")).
Proof.
  split; [unfold AVAILABLE_MODELS; set_solver |].
  apply (init_any_model_identifier mock_provider (Some "sk-env") None);
    [reflexivity | discriminate | reflexivity].
Defined.

(** ** [is_available] *)

(** C8: [is_available] never raises.  It probes once and returns [True]
    when the probe returns and [False] when the probe raises, whatever the
    exception. *)
Theorem is_available_never_raises (provider : Provider)
    (self : MoonshotModel) (w : list event) :
  is_available provider self w =
    (inr (match models_list provider w (client self) with
          | inr _ => true
          | inl _ => false
          end),
     (w ++ [ ModelsList (client self) ])%list).
Proof.
  unfold is_available. run_py.
  by destruct (models_list provider w (client self)) as [e|[]].
Qed.

(** ** [generate_response] *)

Section GenerateResponse.

Variable provider : Provider.
Variable self : MoonshotModel.
Variables system_prompt user_content : string.
Variable temperature : spec_float.
Variable max_tokens : option Z.
Variable kwargs : gmap string pyvalue.
Variable w : list event.

(** What the call adds to the log does not depend on how it ends. *)
Lemma generate_response_log :
  snd (generate_response provider self system_prompt user_content
         temperature max_tokens kwargs w) =
    (w ++ [ ChatCompletionsCreate (client self)
              (create_kwargs (model_name self) system_prompt user_content
                             temperature max_tokens) ])%list.
Proof.
  unfold generate_response. run_py.
  destruct (chat_completions_create provider w (client self) _)
    as [e|[[|choice rest] [u|] dump]]; cbn;
    try destruct (isinstance_Exception e); reflexivity.
Qed.

(** The request raises an exception that [except Exception] catches. *)
Lemma generate_response_raised (e : py_exception) :
  chat_completions_create provider w (client self)
    (create_kwargs (model_name self) system_prompt user_content temperature
                   max_tokens) = inl e ->
  isinstance_Exception e = true ->
  fst (generate_response provider self system_prompt user_content
         temperature max_tokens kwargs w) =
    inl (Exception ("Moonshot API error: " +:+ exc_str e)).
Proof.
  intros Hreq Hexc. unfold generate_response. run_py.
  by rewrite Hreq, Hexc.
Qed.

(** The request raises an exception that is not an [Exception]. *)
Lemma generate_response_not_caught (e : py_exception) :
  chat_completions_create provider w (client self)
    (create_kwargs (model_name self) system_prompt user_content temperature
                   max_tokens) = inl e ->
  isinstance_Exception e = false ->
  fst (generate_response provider self system_prompt user_content
         temperature max_tokens kwargs w) = inl e.
Proof.
  intros Hreq Hexc. unfold generate_response. run_py.
  by rewrite Hreq, Hexc.
Qed.

(** The request returns a completion without choices. *)
Lemma generate_response_no_choice (completion : openai.ChatCompletion) :
  chat_completions_create provider w (client self)
    (create_kwargs (model_name self) system_prompt user_content temperature
                   max_tokens) = inr completion ->
  openai.choices completion = [] ->
  fst (generate_response provider self system_prompt user_content
         temperature max_tokens kwargs w) =
    inl (Exception "Moonshot API error: list index out of range").
Proof.
  intros Hreq Hch. unfold generate_response. run_py.
  rewrite Hreq, Hch. reflexivity.
Qed.

(** The request returns a completion without a usage report. *)
Lemma generate_response_no_usage (completion : openai.ChatCompletion)
    (choice : openai.Choice) (rest : list openai.Choice) :
  chat_completions_create provider w (client self)
    (create_kwargs (model_name self) system_prompt user_content temperature
                   max_tokens) = inr completion ->
  openai.choices completion = choice :: rest ->
  openai.usage completion = None ->
  fst (generate_response provider self system_prompt user_content
         temperature max_tokens kwargs w) =
    inl (Exception
           ("Moonshot API error: " +:+
            "'NoneType' object has no attribute 'total_tokens'")).
Proof.
  intros Hreq Hch Hu. unfold generate_response. run_py.
  rewrite Hreq, Hch, Hu. reflexivity.
Qed.

(** The request returns a completion with a first choice and a usage
    report. *)
Lemma generate_response_returned (completion : openai.ChatCompletion)
    (choice : openai.Choice) (rest : list openai.Choice)
    (u : openai.CompletionUsage) :
  chat_completions_create provider w (client self)
    (create_kwargs (model_name self) system_prompt user_content temperature
                   max_tokens) = inr completion ->
  openai.choices completion = choice :: rest ->
  openai.usage completion = Some u ->
  fst (generate_response provider self system_prompt user_content
         temperature max_tokens kwargs w) =
    inr (ModelResponse.mk
           (openai.content (openai.message choice))
           (openai.model_dump completion)
           (model_name self)
           {[ "total_tokens" := openai.total_tokens u ]}).
Proof.
  intros Hreq Hch Hu. unfold generate_response. run_py.
  rewrite Hreq, Hch, Hu. reflexivity.
Qed.

End GenerateResponse.

(** C1: when the request returns a completion, the response is built from
    the message content of the completion's first choice, the dumped
    completion as raw payload, the model identifier the adapter is
    configured with and a usage mapping whose ["total_tokens"] is the
    total the provider reported.  Such a response is returned whenever the
    completion has a first choice and a usage report, and every response
    that is returned is of this form. *)
Theorem generate_response_success (provider : Provider)
    (self : MoonshotModel) (system_prompt user_content : string)
    (temperature : spec_float) (max_tokens : option Z)
    (kwargs : gmap string pyvalue) (w : list event)
    (completion : openai.ChatCompletion) :
  chat_completions_create provider w (client self)
    (create_kwargs (model_name self) system_prompt user_content temperature
                   max_tokens) = inr completion ->
  (forall (choice : openai.Choice) (rest : list openai.Choice)
          (u : openai.CompletionUsage),
      openai.choices completion = choice :: rest ->
      openai.usage completion = Some u ->
      fst (generate_response provider self system_prompt user_content
             temperature max_tokens kwargs w) =
        inr (ModelResponse.mk
               (openai.content (openai.message choice))
               (openai.model_dump completion)
               (model_name self)
               {[ "total_tokens" := openai.total_tokens u ]}))
  /\ (forall r : ModelResponse.t,
      fst (generate_response provider self system_prompt user_content
             temperature max_tokens kwargs w) = inr r ->
      exists (choice : openai.Choice) (rest : list openai.Choice)
             (u : openai.CompletionUsage),
        openai.choices completion = choice :: rest
        /\ openai.usage completion = Some u
        /\ ModelResponse.content r = openai.content (openai.message choice)
        /\ ModelResponse.raw_response r = openai.model_dump completion
        /\ ModelResponse.model_name r = model_name self
        /\ ModelResponse.usage r !! "total_tokens" =
             Some (openai.total_tokens u)).
Proof.
  intros Hreq. split.
  - intros choice rest u Hch Hu.
    by apply (generate_response_returned _ _ _ _ _ _ _ _ completion choice
                rest u).
  - intros r Hr.
    destruct (openai.choices completion) as [|choice rest] eqn:Hch.
    + rewrite (generate_response_no_choice _ _ _ _ _ _ _ _ completion Hreq
                 Hch) in Hr.
      discriminate Hr.
    + destruct (openai.usage completion) as [u|] eqn:Hu.
      * rewrite (generate_response_returned _ _ _ _ _ _ _ _ completion
                   choice rest u Hreq Hch Hu) in Hr.
        apply inr_eq_inv in Hr. subst r. exists choice, rest, u. cbn.
        do 5 (split; [reflexivity |]). apply lookup_singleton_eq.
      * rewrite (generate_response_no_usage _ _ _ _ _ _ _ _ completion
                   choice rest Hreq Hch Hu) in Hr.
        discriminate Hr.
Qed.

(** The test of the specification: the mocked provider answers "hello"
    with 42 tokens in total. *)
Lemma generate_response_success_witness :
  fst (generate_response mock_provider (mock_self "moonshot-v1-8k")
         "You are a helpful assistant." "Say hello." default_temperature
         default_max_tokens ∅ []) =
    inr (ModelResponse.mk (Some "hello") (openai.model_dump mock_completion)
           "moonshot-v1-8k" {[ "total_tokens" := 42 ]}).
Proof.
  apply (proj1 (generate_response_success mock_provider
                  (mock_self "moonshot-v1-8k") "You are a helpful assistant."
                  "Say hello." default_temperature default_max_tokens ∅ []
                  mock_completion eq_refl)
           (openai.mkChoice (openai.mkMessage (Some "hello"))) []
           (openai.mkUsage 42));
    reflexivity.
Defined.

(** C2: when the request raises an error, that is an exception deriving
    from [Exception], [generate_response] raises
    [Exception("Moonshot API error: " + str(e))] and returns no
    response. *)
Theorem generate_response_provider_error (provider : Provider)
    (self : MoonshotModel) (system_prompt user_content : string)
    (temperature : spec_float) (max_tokens : option Z)
    (kwargs : gmap string pyvalue) (w : list event) (e : py_exception) :
  chat_completions_create provider w (client self)
    (create_kwargs (model_name self) system_prompt user_content temperature
                   max_tokens) = inl e ->
  isinstance_Exception e = true ->
  fst (generate_response provider self system_prompt user_content
         temperature max_tokens kwargs w) =
    inl (Exception ("Moonshot API error: " +:+ exc_str e))
  /\ forall r : ModelResponse.t,
       fst (generate_response provider self system_prompt user_content
              temperature max_tokens kwargs w) <> inr r.
Proof.
  intros Hreq Hexc.
  rewrite (generate_response_raised _ _ _ _ _ _ _ _ e Hreq Hexc).
  split; [reflexivity | discriminate].
Qed.

Lemma generate_response_provider_error_witness :
  fst (generate_response
         (raising_provider (APIConnectionError "Connection error."))
         (mock_self "moonshot-v1-8k") "You are a helpful assistant."
         "Say hello." default_temperature default_max_tokens ∅ []) =
    inl (Exception "Moonshot API error: Connection error.").
Proof.
  apply (generate_response_provider_error
           (raising_provider (APIConnectionError "Connection error."))
           (mock_self "moonshot-v1-8k") "You are a helpful assistant."
           "Say hello." default_temperature default_max_tokens ∅ []
           (APIConnectionError "Connection error."));
    reflexivity.
Defined.

(** C9, as the specification words it, fails: an option the caller passes
    beside the named arguments, here [top_p=1], is not among the keyword
    arguments of the request. *)
Lemma generate_response_drops_extra_options :
  exists kw : gmap string pyvalue,
    snd (generate_response mock_provider (mock_self "moonshot-v1-8k")
           "You are a helpful assistant." "Say hello." default_temperature
           default_max_tokens {[ "top_p" := PInt 1 ]} []) =
      [ ChatCompletionsCreate mock_client kw ]
    /\ ~ ({[ "top_p" := PInt 1 ]} ⊆ kw).
Proof.
  eexists. split.
  - rewrite generate_response_log. reflexivity.
  - intros Hsub.
    pose proof (lookup_weaken _ _ "top_p" (PInt 1)
                  (lookup_singleton_eq _ _) Hsub) as Hin.
    unfold create_kwargs in Hin. by simplify_map_eq.
Qed.

(** C9 (amended): every call adds exactly one event to the log, one
    chat-completion request on the adapter's client.  Its keyword
    arguments are [model], [messages], [temperature] and [max_tokens] and
    no other: the configured model identifier; a list of two messages, the
    system-role one with the system prompt first and the user-role one
    with the user content second; the temperature; and the [max_tokens]
    argument, [None] when absent.  The extra options of the caller are
    not forwarded, so there is no [stream] argument, and the request is
    not repeated, however it ends. *)
Theorem generate_response_one_request (provider : Provider)
    (self : MoonshotModel) (system_prompt user_content : string)
    (temperature : spec_float) (max_tokens : option Z)
    (kwargs : gmap string pyvalue) (w : list event) :
  exists kw : gmap string pyvalue,
    snd (generate_response provider self system_prompt user_content
           temperature max_tokens kwargs w) =
      (w ++ [ ChatCompletionsCreate (client self) kw ])%list
    /\ dom kw =
         ({[ "model"; "messages"; "temperature"; "max_tokens" ]}
            : gset string)
    /\ kw !! "model" = Some (PStr (model_name self))
    /\ kw !! "messages" =
         Some (PList [ PDict {[ "role" := PStr "system";
                                "content" := PStr system_prompt ]};
                       PDict {[ "role" := PStr "user";
                                "content" := PStr user_content ]} ])
    /\ kw !! "temperature" = Some (PFloat temperature)
    /\ kw !! "max_tokens" =
         Some (match max_tokens with Some n => PInt n | None => PNone end)
    /\ kw !! "stream" = None.
Proof.
  eexists. split; [apply generate_response_log |]. cbv zeta.
  unfold create_kwargs.
  split; [rewrite !dom_insert_L, dom_singleton_L; set_solver |].
  destruct max_tokens;
    repeat match goal with |- _ /\ _ => split end; by simplify_map_eq.
Qed.

(** * Further properties *)

(** ** The entries of the parameter table *)

Lemma params_lookup_inv (m : string) (e : gmap string Z) :
  params !! m = Some e ->
  e = {[ "context_window" := 8000; "max_output_tokens" := 4096 ]}
  \/ e = {[ "context_window" := 32000; "max_output_tokens" := 8000 ]}
  \/ e = {[ "context_window" := 128000; "max_output_tokens" := 8000 ]}
  \/ e = {[ "context_window" := 256000; "max_output_tokens" := 8000 ]}.
Proof.
  unfold params. rewrite !lookup_insert_Some, lookup_singleton_Some.
  intros [[_ <-] | [_ [[_ <-] | [_ [[_ <-] | [_ [_ <-]]]]]]]; auto.
Qed.

Lemma entry_shape (c o : Z) :
  let e : gmap string Z :=
    {[ "context_window" := c; "max_output_tokens" := o ]} in
  dom e = ({[ "context_window"; "max_output_tokens" ]} : gset string)
  /\ e !! "context_window" = Some c
  /\ e !! "max_output_tokens" = Some o.
Proof.
  cbv zeta. split; [by rewrite dom_insert_L, dom_singleton_L |].
  split; by simplify_map_eq.
Qed.

(** X1: whatever [get_model_parameters] is asked, a mapping it returns is
    empty or has exactly the two keys ["context_window"] and
    ["max_output_tokens"], both positive, the output limit never above
    the context window. *)
Theorem get_model_parameters_entry_shape (self : MoonshotModel)
    (model_name_arg : option string) (w : list event)
    (e : gmap string Z) :
  fst (get_model_parameters self model_name_arg w) = inr e ->
  e = ∅
  \/ (dom e = ({[ "context_window"; "max_output_tokens" ]} : gset string)
      /\ exists c o : Z,
           e !! "context_window" = Some c
           /\ e !! "max_output_tokens" = Some o
           /\ 0 < o <= c).
Proof.
  rewrite get_model_parameters_run. cbn [fst]. intros He.
  apply inr_eq_inv in He.
  destruct (params !! py_or model_name_arg (model_name self)) as [e'|] eqn:Hl;
    cbn [default] in He; subst e; [right | by left].
  apply params_lookup_inv in Hl.
  destruct Hl as [-> | [-> | [-> | ->]]];
    (split; [apply entry_shape |]);
    eexists _, _;
    (split; [apply entry_shape |]); (split; [apply entry_shape | lia]).
Qed.

Lemma get_model_parameters_entry_shape_witness :
  let e : gmap string Z :=
    {[ "context_window" := 8000; "max_output_tokens" := 4096 ]} in
  e = ∅
  \/ (dom e = ({[ "context_window"; "max_output_tokens" ]} : gset string)
      /\ exists c o : Z,
           e !! "context_window" = Some c
           /\ e !! "max_output_tokens" = Some o
           /\ 0 < o <= c).
Proof.
  apply (get_model_parameters_entry_shape (mock_self "kimi-k2-thinking")
           (Some "moonshot-v1-8k") []).
  rewrite get_model_parameters_run. cbn [fst py_or].
  rewrite params_8k. reflexivity.
Defined.

(** X2: [get_model_parameters] answers with a non-empty mapping exactly
    when the identifier it looks up, the given one or else the configured
    one, is one of the four keys of the table. *)
Theorem get_model_parameters_nonempty_iff (self : MoonshotModel)
    (model_name_arg : option string) (w : list event) :
  fst (get_model_parameters self model_name_arg w) <> inr ∅
  <-> py_or model_name_arg (model_name self) ∈
        ({[ "moonshot-v1-8k"; "moonshot-v1-32k"; "moonshot-v1-128k";
            "kimi-k2-thinking" ]} : gset string).
Proof.
  rewrite get_model_parameters_run, <- dom_params, elem_of_dom. cbn [fst].
  destruct (params !! py_or model_name_arg (model_name self)) as [e|] eqn:Hl;
    cbn [default].
  - split; [intros _; by eexists |]. intros _ He. apply inr_eq_inv in He.
    apply params_lookup_inv in Hl.
    destruct Hl as [-> | [-> | [-> | ->]]]; by apply entry_nonempty in He.
  - split; [intros He; by destruct He | intros [? [=]]].
Qed.

(** ** What construction leaves behind *)

(** A returned instance can only come from the branch of
    [initialize_client] that had a key and saw the probe succeed. *)
Lemma init_inr_inv (provider : Provider)
    (environ_api_key key_arg : option string) (m : string)
    (w : list event) (self : MoonshotModel) :
  fst (__init__ provider environ_api_key key_arg m w) = inr self ->
  exists key : string,
    BaseModel_init environ_api_key key_arg = Some key
    /\ key <> ""
    /\ models_list provider w
         (openai.mkOpenAI key "https://api.moonshot.ai/v1") = inr tt
    /\ self =
         mkMoonshotModel "https://api.moonshot.ai/v1" m key
           (openai.mkOpenAI key "https://api.moonshot.ai/v1").
Proof.
  unfold __init__. cbv zeta.
  destruct (BaseModel_init environ_api_key key_arg) as [key|] eqn:Hres.
  - destruct (String.eqb_spec key "") as [->|Hkey].
    + rewrite initialize_client_no_key by reflexivity. discriminate.
    + rewrite initialize_client_with_key by assumption. cbv zeta.
      destruct (models_list provider w _) as [e|[]] eqn:Hprobe;
        [discriminate |].
      cbn [fst]. intros Hself. apply inr_eq_inv in Hself.
      exists key. by repeat split.
  - rewrite initialize_client_no_key by reflexivity. discriminate.
Qed.

(** X3: every instance the constructor returns is fully configured: its
    endpoint is the fixed Moonshot URL, its model identifier the one
    asked for, its key the resolved credential and not empty, its client
    built from that key and that endpoint, and the probe of that client
    succeeded. *)
Theorem init_instance_invariant (provider : Provider)
    (environ_api_key key_arg : option string) (m : string)
    (w : list event) (self : MoonshotModel) :
  fst (__init__ provider environ_api_key key_arg m w) = inr self ->
  base_url self = "https://api.moonshot.ai/v1"
  /\ model_name self = m
  /\ BaseModel_init environ_api_key key_arg = Some (api_key self)
  /\ api_key self <> ""
  /\ client self =
       openai.mkOpenAI (api_key self) "https://api.moonshot.ai/v1"
  /\ models_list provider w (client self) = inr tt.
Proof.
  intros Hinit. apply init_inr_inv in Hinit.
  destruct Hinit as (key & Hres & Hkey & Hprobe & ->). cbn.
  by repeat match goal with |- _ /\ _ => split end.
Qed.

Lemma init_instance_invariant_witness :
  base_url (mock_self "moonshot-v1-32k") = "https://api.moonshot.ai/v1"
  /\ model_name (mock_self "moonshot-v1-32k") = "moonshot-v1-32k"
  /\ BaseModel_init None (Some "sk-test") =
       Some (api_key (mock_self "moonshot-v1-32k"))
  /\ api_key (mock_self "moonshot-v1-32k") <> ""
  /\ client (mock_self "moonshot-v1-32k") =
       openai.mkOpenAI (api_key (mock_self "moonshot-v1-32k"))
         "https://api.moonshot.ai/v1"
  /\ models_list mock_provider [] (client (mock_self "moonshot-v1-32k"))
       = inr tt.
Proof.
  apply (init_instance_invariant mock_provider None (Some "sk-test")
           "moonshot-v1-32k" []).
  reflexivity.
Defined.


(** X5: when the probe raises during construction, the log gains the
    probe and, if the exception derives from [Exception], one notice
    quoting [str(e)]; the success notices are not printed, and an
    exception outside [Exception] leaves no notice at all. *)
Theorem init_probe_failure_log (provider : Provider)
    (environ_api_key key_arg : option string) (m key : string)
    (w : list event) (e : py_exception) :
  BaseModel_init environ_api_key key_arg = Some key ->
  key <> "" ->
  models_list provider w (openai.mkOpenAI key "https://api.moonshot.ai/v1")
    = inl e ->
  snd (__init__ provider environ_api_key key_arg m w) =
    (w ++ ModelsList (openai.mkOpenAI key "https://api.moonshot.ai/v1")
       :: (if isinstance_Exception e then
             [ Cprint ("❌ Error initializing Moonshot: " +:+ exc_str e)
                      "white" (Some "on_red") ]
           else []))%list.
Proof.
  intros Hres Hkey Hprobe. unfold __init__. rewrite Hres.
  rewrite initialize_client_with_key by assumption.
  cbv zeta. rewrite Hprobe. cbn [snd].
  by destruct (isinstance_Exception e).
Qed.

Lemma init_probe_failure_log_witness :
  snd (__init__ (raising_provider (APIConnectionError "Connection error."))
         None (Some "sk-test") default_model_name []) =
    [ ModelsList mock_client;
      Cprint "❌ Error initializing Moonshot: Connection error." "white"
             (Some "on_red") ].
Proof.
  apply (init_probe_failure_log
           (raising_provider (APIConnectionError "Connection error."))
           None (Some "sk-test") default_model_name "sk-test" []
           (APIConnectionError "Connection error."));
    [reflexivity | discriminate | reflexivity].
Defined.

(** X6: on an instance the constructor returned, [is_available] probes
    the client built at construction, the resolved key on the fixed
    endpoint, and reports what the provider answers now: the success of
    the probe at construction is not remembered. *)
Theorem is_available_after_init (provider : Provider)
    (environ_api_key key_arg : option string) (m : string)
    (w w' : list event) (self : MoonshotModel) :
  fst (__init__ provider environ_api_key key_arg m w) = inr self ->
  is_available provider self w' =
    (inr (match models_list provider w'
                  (openai.mkOpenAI (api_key self)
                     "https://api.moonshot.ai/v1") with
          | inr _ => true
          | inl _ => false
          end),
     (w' ++ [ ModelsList (openai.mkOpenAI (api_key self)
                            "https://api.moonshot.ai/v1") ])%list).
Proof.
  intros Hinit. apply init_inr_inv in Hinit.
  destruct Hinit as (key & _ & _ & _ & ->). cbn [api_key].
  unfold is_available. run_py. cbn [client].
  by destruct (models_list provider w' _) as [e|[]].
Qed.

Lemma is_available_after_init_witness :
  is_available mock_provider (mock_self "moonshot-v1-8k")
    [ ModelsList mock_client ] =
    (inr true, [ ModelsList mock_client; ModelsList mock_client ]).
Proof.
  apply (is_available_after_init mock_provider None (Some "sk-test")
           "moonshot-v1-8k" [] [ ModelsList mock_client ]
           (mock_self "moonshot-v1-8k")).
  reflexivity.
Defined.

(** X7: on an instance the constructor returned, every call of
    [generate_response] sends its one request on the client built at
    construction and names the model identifier given at construction,
    whether or not that identifier is a known model. *)
Theorem generate_response_after_init (provider : Provider)
    (environ_api_key key_arg : option string) (m : string)
    (w w' : list event) (self : MoonshotModel)
    (system_prompt user_content : string) (temperature : spec_float)
    (max_tokens : option Z) (kwargs : gmap string pyvalue) :
  fst (__init__ provider environ_api_key key_arg m w) = inr self ->
  snd (generate_response provider self system_prompt user_content
         temperature max_tokens kwargs w') =
    (w' ++ [ ChatCompletionsCreate
               (openai.mkOpenAI (api_key self) "https://api.moonshot.ai/v1")
               (create_kwargs m system_prompt user_content temperature
                              max_tokens) ])%list.
Proof.
  intros Hinit. apply init_inr_inv in Hinit.
  destruct Hinit as (key & _ & _ & _ & ->).
  by rewrite generate_response_log.
Qed.

Lemma generate_response_after_init_witness :
  snd (generate_response mock_provider (mock_self "unknown-model-xyz")
         "You are a helpful assistant." "Say hello." default_temperature
         default_max_tokens ∅ []) =
    [ ChatCompletionsCreate mock_client
        (create_kwargs "unknown-model-xyz" "You are a helpful assistant."
           "Say hello." default_temperature default_max_tokens) ].
Proof.
  apply (generate_response_after_init mock_provider None (Some "sk-test")
           "unknown-model-xyz" [] [] (mock_self "unknown-model-xyz")).
  reflexivity.
Defined.

(** ** More on [generate_response] *)

(** X8: an exception of the request that does not derive from
    [Exception], such as [KeyboardInterrupt], is not wrapped:
    [generate_response] lets it through as it is, after the one
    request. *)
Theorem generate_response_interrupt (provider : Provider)
    (self : MoonshotModel) (system_prompt user_content : string)
    (temperature : spec_float) (max_tokens : option Z)
    (kwargs : gmap string pyvalue) (w : list event) (e : py_exception) :
  chat_completions_create provider w (client self)
    (create_kwargs (model_name self) system_prompt user_content temperature
                   max_tokens) = inl e ->
  isinstance_Exception e = false ->
  generate_response provider self system_prompt user_content temperature
    max_tokens kwargs w =
    (inl e,
     (w ++ [ ChatCompletionsCreate (client self)
               (create_kwargs (model_name self) system_prompt user_content
                              temperature max_tokens) ])%list).
Proof.
  intros Hreq Hexc.
  rewrite (surjective_pairing (generate_response _ _ _ _ _ _ _ _)).
  rewrite generate_response_log.
  by rewrite (generate_response_not_caught _ _ _ _ _ _ _ _ e Hreq Hexc).
Qed.

Lemma generate_response_interrupt_witness :
  fst (generate_response (raising_provider (PyExc KeyboardInterrupt ""))
         (mock_self "moonshot-v1-8k") "You are a helpful assistant."
         "Say hello." default_temperature default_max_tokens ∅ []) =
    inl (PyExc KeyboardInterrupt "").
Proof.
  exact (f_equal fst
           (generate_response_interrupt
              (raising_provider (PyExc KeyboardInterrupt ""))
              (mock_self "moonshot-v1-8k") "You are a helpful assistant."
              "Say hello." default_temperature default_max_tokens ∅ []
              (PyExc KeyboardInterrupt "") eq_refl eq_refl)).
Defined.

(** X9: a completion that comes back without any choice, or with a
    choice but without a usage report, does not yield a response: the
    [IndexError], respectively the [AttributeError], of reading it is
    caught and raised again as a "Moonshot API error". *)
Theorem generate_response_malformed_completion (provider : Provider)
    (self : MoonshotModel) (system_prompt user_content : string)
    (temperature : spec_float) (max_tokens : option Z)
    (kwargs : gmap string pyvalue) (w : list event)
    (completion : openai.ChatCompletion) :
  chat_completions_create provider w (client self)
    (create_kwargs (model_name self) system_prompt user_content temperature
                   max_tokens) = inr completion ->
  (openai.choices completion = [] ->
   fst (generate_response provider self system_prompt user_content
          temperature max_tokens kwargs w) =
     inl (Exception "Moonshot API error: list index out of range"))
  /\ (openai.choices completion <> [] ->
      openai.usage completion = None ->
      fst (generate_response provider self system_prompt user_content
             temperature max_tokens kwargs w) =
        inl (Exception
               "Moonshot API error: 'NoneType' object has no attribute 'total_tokens'")).
Proof.
  intros Hreq. split.
  - intros Hch.
    by apply (generate_response_no_choice _ _ _ _ _ _ _ _ completion).
  - intros Hch Hu.
    destruct (openai.choices completion) as [|choice rest] eqn:Hch';
      [congruence |].
    by rewrite (generate_response_no_usage _ _ _ _ _ _ _ _ completion choice
                  rest Hreq Hch' Hu).
Qed.

Lemma generate_response_malformed_completion_witness :
  fst (generate_response hollow_provider (mock_self "moonshot-v1-8k")
         "You are a helpful assistant." "Say hello." default_temperature
         default_max_tokens ∅ []) =
    inl (Exception "Moonshot API error: list index out of range").
Proof.
  apply (proj1 (generate_response_malformed_completion hollow_provider
                  (mock_self "moonshot-v1-8k") "You are a helpful assistant."
                  "Say hello." default_temperature default_max_tokens ∅ []
                  (openai.mkCompletion [] None PNone) eq_refl)).
  reflexivity.
Defined.

(** X10: every exception that leaves [generate_response] is either an
    [Exception] whose message starts with "Moonshot API error: ", or an
    exception outside [Exception] that the request itself raised.  No
    [IndexError], [AttributeError] or provider error class reaches the
    caller. *)
Theorem generate_response_error_shape (provider : Provider)
    (self : MoonshotModel) (system_prompt user_content : string)
    (temperature : spec_float) (max_tokens : option Z)
    (kwargs : gmap string pyvalue) (w : list event) (e : py_exception) :
  fst (generate_response provider self system_prompt user_content
         temperature max_tokens kwargs w) = inl e ->
  (exists msg : string, e = Exception ("Moonshot API error: " +:+ msg))
  \/ (isinstance_Exception e = false
      /\ chat_completions_create provider w (client self)
           (create_kwargs (model_name self) system_prompt user_content
                          temperature max_tokens) = inl e).
Proof.
  unfold generate_response. run_py.
  destruct (chat_completions_create provider w (client self) _)
    as [e0|[[|choice rest] [u|] dump]] eqn:Hreq; cbn.
  - destruct (isinstance_Exception e0) eqn:Hexc; cbn; intros [= <-].
    + left. by eexists.
    + by right.
  - intros [= <-]. left. by eexists.
  - intros [= <-]. left. by eexists.
  - discriminate.
  - intros [= <-]. left. by eexists.
Qed.

Lemma generate_response_error_shape_witness :
  (exists msg : string,
      Exception "Moonshot API error: Connection error." =
        Exception ("Moonshot API error: " +:+ msg))
  \/ (isinstance_Exception (Exception "Moonshot API error: Connection error.")
        = false
      /\ chat_completions_create
           (raising_provider (APIConnectionError "Connection error.")) []
           (client (mock_self "moonshot-v1-8k"))
           (create_kwargs (model_name (mock_self "moonshot-v1-8k"))
              "You are a helpful assistant." "Say hello."
              default_temperature default_max_tokens) =
           inl (Exception "Moonshot API error: Connection error.")).
Proof.
  apply (generate_response_error_shape
           (raising_provider (APIConnectionError "Connection error."))
           (mock_self "moonshot-v1-8k") "You are a helpful assistant."
           "Say hello." default_temperature default_max_tokens ∅ []).
  reflexivity.
Defined.

(** X11: every response [generate_response] returns names the configured
    model, has a usage mapping with the single key ["total_tokens"], and
    carries as raw payload the dump of a completion the request really
    returned. *)
Theorem generate_response_response_shape (provider : Provider)
    (self : MoonshotModel) (system_prompt user_content : string)
    (temperature : spec_float) (max_tokens : option Z)
    (kwargs : gmap string pyvalue) (w : list event) (r : ModelResponse.t) :
  fst (generate_response provider self system_prompt user_content
         temperature max_tokens kwargs w) = inr r ->
  ModelResponse.model_name r = model_name self
  /\ dom (ModelResponse.usage r) = ({[ "total_tokens" ]} : gset string)
  /\ exists completion : openai.ChatCompletion,
       chat_completions_create provider w (client self)
         (create_kwargs (model_name self) system_prompt user_content
                        temperature max_tokens) = inr completion
       /\ ModelResponse.raw_response r = openai.model_dump completion.
Proof.
  unfold generate_response. run_py.
  destruct (chat_completions_create provider w (client self) _)
    as [e0|[[|choice rest] [u|] dump]] eqn:Hreq; cbn;
    try destruct (isinstance_Exception e0); try discriminate.
  intros Hr. apply inr_eq_inv in Hr. subst r. cbn.
  split; [reflexivity |]. split; [apply dom_singleton_L |].
  by eexists.
Qed.

Lemma generate_response_response_shape_witness :
  let r := ModelResponse.mk (Some "hello") (openai.model_dump mock_completion)
             "moonshot-v1-8k" {[ "total_tokens" := 42 ]} in
  ModelResponse.model_name r = model_name (mock_self "moonshot-v1-8k")
  /\ dom (ModelResponse.usage r) = ({[ "total_tokens" ]} : gset string)
  /\ exists completion : openai.ChatCompletion,
       chat_completions_create mock_provider []
         (client (mock_self "moonshot-v1-8k"))
         (create_kwargs (model_name (mock_self "moonshot-v1-8k"))
            "You are a helpful assistant." "Say hello." default_temperature
            default_max_tokens) = inr completion
       /\ ModelResponse.raw_response r = openai.model_dump completion.
Proof.
  apply (generate_response_response_shape mock_provider
           (mock_self "moonshot-v1-8k") "You are a helpful assistant."
           "Say hello." default_temperature default_max_tokens ∅ []).
  reflexivity.
Defined.

(** X12: nothing is cached between calls: two calls in a row, even with
    the same arguments, put two requests in the log, in the order of the
    calls. *)
Theorem generate_response_twice (provider : Provider)
    (self : MoonshotModel) (sp1 uc1 sp2 uc2 : string)
    (t1 t2 : spec_float) (mt1 mt2 : option Z)
    (kw1 kw2 : gmap string pyvalue) (w : list event) :
  let w1 := snd (generate_response provider self sp1 uc1 t1 mt1 kw1 w) in
  w1 = (w ++ [ ChatCompletionsCreate (client self)
                 (create_kwargs (model_name self) sp1 uc1 t1 mt1) ])%list
  /\ snd (generate_response provider self sp2 uc2 t2 mt2 kw2 w1) =
       (w ++ [ ChatCompletionsCreate (client self)
                 (create_kwargs (model_name self) sp1 uc1 t1 mt1);
               ChatCompletionsCreate (client self)
                 (create_kwargs (model_name self) sp2 uc2 t2 mt2) ])%list.
Proof.
  cbv zeta. rewrite !generate_response_log. split; [reflexivity |].
  by rewrite <- app_assoc.
Qed.

(** ** [__str__] *)

Lemma append_inv_head (p a b : string) : p +:+ a = p +:+ b -> a = b.
Proof.
  induction p as [|c p IH]; cbn; [done |]. intros [= H]. by apply IH.
Qed.

Lemma append_inv_tail_char (c : Ascii.ascii) (a b : string) :
  a +:+ String c "" = b +:+ String c "" -> a = b.
Proof.
  revert b. induction a as [|x a IH]; intros [|y b]; cbn.
  - done.
  - intros [= _ H]. by destruct b.
  - intros [= _ H]. by destruct a.
  - intros [= -> H]. f_equal. by apply IH.
Qed.

(** X13: the string representation is ["MoonshotModel(" + model_name +
    ")"], so two instances print alike exactly when they are configured
    with the same model identifier, whatever their keys and clients. *)
Theorem str_determines_model_name (self1 self2 : MoonshotModel) :
  __str__ self1 = __str__ self2 <-> model_name self1 = model_name self2.
Proof.
  unfold __str__. split; [| by intros ->].
  intros H. apply append_inv_head in H. by apply append_inv_tail_char in H.
Qed.
